(** * IPTVFlow: liveness verification and candidate selection

    A shallow embedding of the probing core of [iptvflow.py]:
    [get_host_key], [is_valid_hls_content], [is_valid_hls_stream],
    [test_single_stream], [test_hosts_two_phase] and
    [build_final_playlist], with the properties the specification
    states about them. *)

From Stdlib Require Import QArith String Ascii DecimalString Sorted.
From stdpp Require Import base option list gmap.

Local Open Scope Z_scope.

(** ** Python values *)

(** A Python [str] is a sequence of Unicode code points. *)
Definition pystr := list N.

(** A [bytes] object. *)
Definition pybytes := list Byte.byte.

(** Literals of the source are ASCII; [str] reads one off a Rocq string. *)
Definition str (s : string) : pystr :=
  map N_of_ascii (list_ascii_of_string s).

(** [bool(s)] for a string: the empty string is falsy. *)
Definition truthy (s : pystr) : bool :=
  match s with [] => false | _ :: _ => true end.

(** [s.startswith(p)] *)
Fixpoint startswith (p s : pystr) : bool :=
  match p, s with
  | [], _ => true
  | _ :: _, [] => false
  | a :: p', b :: s' => N.eqb a b && startswith p' s'
  end.

(** [s.endswith(p)] *)
Definition endswith (p s : pystr) : bool :=
  startswith (rev p) (rev s).

(** [s.endswith(ps)] with a tuple of suffixes. *)
Definition endswith_any (ps : list pystr) (s : pystr) : bool :=
  existsb (fun p => endswith p s) ps.

(** [k in s] : substring test. *)
Fixpoint contains (k s : pystr) : bool :=
  startswith k s ||
  match s with
  | [] => false
  | _ :: s' => contains k s'
  end.

(** [ch.isspace()] as CPython decides it ([_PyUnicode_IsWhitespace]). *)
Definition isspace (c : N) : bool :=
  ((9 <=? c) && (c <=? 13) || (28 <=? c) && (c <=? 32)
   || (c =? 133) || (c =? 160) || (c =? 5760)
   || (8192 <=? c) && (c <=? 8202)
   || (c =? 8232) || (c =? 8233) || (c =? 8239) || (c =? 8287)
   || (c =? 12288))%N.

Fixpoint lstrip (s : pystr) : pystr :=
  match s with
  | c :: s' => if isspace c then lstrip s' else s
  | [] => []
  end.

Definition rstrip (s : pystr) : pystr := rev (lstrip (rev s)).

(** [s.strip()] *)
Definition strip (s : pystr) : pystr := rstrip (lstrip s).

(** [str(n)] for an [int]. *)
Definition str_of_Z (z : Z) : pystr :=
  str (NilZero.string_of_int (Z.to_int z)).

(** An exception instance (a subclass of [Exception]): its class name and
    the text [str(e)] yields. *)
Record exn := Exn { exn_class : pystr; exn_str : pystr }.

(** What evaluating a Python expression or call ends in. *)
Inductive Outcome (A : Type) :=
| Return (a : A)
| Raise (e : exn).
Arguments Return {A} a.
Arguments Raise {A} e.

(** ** Configuration ([class Config]) *)

Module Config.
Definition TIMEOUT : Z := 8.
Definition MAX_WORKERS : Z := 15.
Definition HTTP_OK : Z := 200.
Definition M3U_HEADER : pystr := str "#EXTM3U".
Definition HLS_EXTENSIONS : list pystr := [str ".m3u8"; str ".m3u"].
End Config.

(** ** The part of the Python runtime the code calls

    [urlparse] and the codecs are library code; the development is
    parametric in them. *)

(** The attributes of a [ParseResult] that [get_host_key] reads.  The
    [port] property raises [ValueError] when it is read and the port is
    not a number in range, hence an [Outcome]. *)
Record ParseResult := {
  scheme : pystr;
  hostname : option pystr;
  port : Outcome (option Z)
}.

Class PyLib := {
  (** [urllib.parse.urlparse(u)] *)
  urlparse : pystr -> Outcome ParseResult;
  (** [content.decode('utf-8', errors='ignore')] *)
  decode_utf8_ignore : pybytes -> pystr;
  (** [text.lower()] *)
  lower : pystr -> pystr
}.

(** ** Host Resolver *)

Section HostResolver.
Context `{PyLib}.

(** [p.port or (443 if p.scheme == "https" else 80)]; the integer [0]
    is falsy. *)
Definition port_or_default (p_port : option Z) (p_scheme : pystr) : Z :=
  let default := if decide (p_scheme = str "https") then 443 else 80 in
  match p_port with
  | Some n => if decide (n = 0) then default else n
  | None => default
  end.

(** [f"{p.hostname}:{port}" if p.hostname else None] *)
Definition host_key_of (p_hostname : option pystr) (port : Z) : option pystr :=
  match p_hostname with
  | Some h => if truthy h then Some (h ++ str ":" ++ str_of_Z port) else None
  | None => None
  end.

Definition get_host_key (u : pystr) : option pystr :=
  match urlparse u with
  | Return p =>
      match port p with
      | Return p_port => host_key_of (hostname p) (port_or_default p_port (scheme p))
      | Raise _ => None
      end
  | Raise _ => None
  end.
End HostResolver.

(** ** Content check *)

Definition is_valid_hls_content (text : pystr) : bool :=
  let txt := strip text in
  startswith Config.M3U_HEADER txt
  && existsb (fun k => contains k txt) [str "#EXTINF"; str "#EXT-X-STREAM-INF"].

(** ** Effects

    A call runs against a state, ends in a value or in a raised
    exception, and leaves a state behind either way (Python does not
    undo effects when an exception unwinds). *)

Definition M (S A : Type) : Type := S -> Outcome A * S.

Definition ret {S A} (a : A) : M S A := fun s => (Return a, s).

Definition raise {S A} (e : exn) : M S A := fun s => (Raise e, s).

Definition bind {S A B} (m : M S A) (k : A -> M S B) : M S B :=
  fun s =>
    match m s with
    | (Return a, s') => k a s'
    | (Raise e, s') => (Raise e, s')
    end.

(** [try: m except Exception as e: h e] *)
Definition try_except {S A} (m : M S A) (h : exn -> M S A) : M S A :=
  fun s =>
    match m s with
    | (Return a, s') => (Return a, s')
    | (Raise e, s') => h e s'
    end.

Declare Scope py_scope.
Delimit Scope py_scope with py.
Notation "x <- m ;; k" := (bind m (fun x => k))
  (at level 100, m at next level, right associativity) : py_scope.
Notation "m ;;; k" := (bind m (fun _ => k))
  (at level 100, right associativity) : py_scope.

(** [for x in l: acc = body x acc] *)
Fixpoint for_each {S X Acc} (body : X -> Acc -> M S Acc) (l : list X) (acc : Acc)
  : M S Acc :=
  match l with
  | [] => ret acc
  | x :: l' => bind (body x acc) (for_each body l')
  end.

(** ** Probe verdicts and the network *)

(** The dict [is_valid_hls_stream] returns. *)
Module Verdict.
Record t := Make {
  alive : bool;
  latency : Q;
  type : pystr;
  reason : pystr
}.
End Verdict.

(** A [requests.Response] opened with [stream=True]: the status line has
    been read; [iter_content] then yields the chunks in turn and, when
    the connection breaks, raises after the last of them. *)
Record Response := {
  status_code : Z;
  chunks : list pybytes;
  broken : option exn
}.

(** The operations on the outside world.  [World] is whatever they depend
    on and change: the network, the clock, the installed tools. *)
Class Net (World : Type) := {
  (** [time.time()] *)
  time_time : World -> Q * World;
  (** [requests.head(url, timeout=t, ...).status_code] *)
  requests_head : pystr -> Z -> M World Z;
  (** [requests.get(url, timeout=t, stream=True, ...)] *)
  requests_get : pystr -> Z -> M World Response;
  is_ffmpeg_available : M World bool;
  (** [run_ffprobe(url, timeout=t)] *)
  run_ffprobe : pystr -> Z -> M World bool;
  is_ocr_available : M World bool;
  (** [run_ocr_check(url, timeout=t)] *)
  run_ocr_check : pystr -> Z -> M World bool
}.

(** [content = b""; for chunk in r.iter_content(512): content += chunk;
    if len(content) > 2048: break] *)
Fixpoint read_prefix (cs : list pybytes) (br : option exn) (content : pybytes)
  : Outcome pybytes :=
  match cs with
  | [] => match br with Some e => Raise e | None => Return content end
  | chunk :: cs' =>
      let content' := content ++ chunk in
      if 2048 <? Z.of_nat (length content') then Return content'
      else read_prefix cs' br content'
  end.

Definition of_outcome {S A} (o : Outcome A) : M S A := fun s => (o, s).

Section Prober.
Context `{PyLib} {World : Type} `{Net World}.
Local Open Scope py_scope.

Definition now : M World Q := fun w => let (t, w') := time_time w in (Return t, w').

(** The [HEAD] pre-check: [Some v] when it returns the verdict [v] from
    the function, [None] when control falls through to the [GET]. *)
Definition head_precheck (url : pystr) (timeout : Z) (start : Q)
  : M World (option Verdict.t) :=
  try_except
    (h_status <- requests_head url (timeout / 2) ;;
     if negb (bool_decide (h_status ∈ [Config.HTTP_OK; 206; 301; 302])) then
       t <- now ;;
       ret (Some (Verdict.Make false (t - start) (str "dead")
                    (str "HEAD " ++ str_of_Z h_status)))
     else ret None)
    (fun _ => ret None).

(** [stream_type] *)
Definition stream_type_of (text : pystr) : pystr :=
  if contains (str "#EXT-X-STREAM-INF") text then str "master"
  else if contains (str ".ts") (lower text) then str "media"
  else str "hls".

(** The statements under the outer [try:] of [is_valid_hls_stream]. *)
Definition is_valid_hls_stream_try (url : pystr) (timeout : Z) (start : Q)
  : M World Verdict.t :=
  pre <- head_precheck url timeout start ;;
  match pre with
  | Some v => ret v
  | None =>
      r <- requests_get url timeout ;;
      if negb (bool_decide (status_code r = Config.HTTP_OK)) then
        t <- now ;;
        ret (Verdict.Make false (t - start) (str "dead")
               (str "GET " ++ str_of_Z (status_code r)))
      else
        content <- of_outcome (read_prefix (chunks r) (broken r) []) ;;
        let text := decode_utf8_ignore content in
        t <- now ;;
        let latency := (t - start)%Q in
        if negb (is_valid_hls_content text) then
          ret (Verdict.Make false latency (str "not_hls") (str "Not valid M3U8"))
        else
          let result := Verdict.Make true latency (stream_type_of text) (str "OK") in
          if negb (endswith_any Config.HLS_EXTENSIONS url) then
            available <- is_ffmpeg_available ;;
            if available then
              ok <- run_ffprobe url 8 ;;
              if negb ok then
                ret (Verdict.Make false (Verdict.latency result) (Verdict.type result)
                       (str "FFmpeg validation failed"))
              else ret result
            else ret result
          else ret result
  end.

Definition is_valid_hls_stream (url : pystr) (timeout : Z) : M World Verdict.t :=
  start <- now ;;
  try_except (is_valid_hls_stream_try url timeout start)
    (fun e => t <- now ;;
              ret (Verdict.Make false (t - start) (str "error") (exn_str e))).

(** The statements under the [try:] of [test_single_stream]. *)
Definition test_single_stream_try (url : pystr) (timeout : Z) : M World bool :=
  r <- requests_get url timeout ;;
  if negb (bool_decide (status_code r = Config.HTTP_OK)) then ret false
  else
    content <- of_outcome (read_prefix (chunks r) (broken r) []) ;;
    let text := decode_utf8_ignore content in
    if negb (is_valid_hls_content text) then ret false
    else if negb (endswith_any Config.HLS_EXTENSIONS url) then
      available <- is_ocr_available ;;
      if available then run_ocr_check url 15 else ret true
    else ret true.

Definition test_single_stream (url : pystr) (timeout : Z) : M World bool :=
  try_except (test_single_stream_try url timeout) (fun _ => ret false).
End Prober.

(** ** Bookkeeping of calls

    To state which probes a run issues, and for whom, the state carries
    next to the world a log of the prober calls made, oldest first.  The
    code never reads it. *)

Record Run (World Call : Type) := MkRun {
  world : World;
  calls : list Call
}.
Arguments MkRun {World Call} world calls.
Arguments world {World Call} r.
Arguments calls {World Call} r.

(** Run a world operation inside a logged run. *)
Definition in_world {World Call A} (m : M World A) : M (Run World Call) A :=
  fun r => let (o, w') := m (world r) in (o, MkRun w' (calls r)).

Definition log_call {World Call} (c : Call) : M (Run World Call) unit :=
  fun r => (Return tt, MkRun (world r) (calls r ++ [c])).

(** ** Two-Phase Host Tester *)

(** One entry of [host_quality]. *)
Module HostQuality.
Record t := Make {
  alive : bool;
  latency : Q;
  type : pystr;
  representative_url : option pystr;
  trials : Z
}.
End HostQuality.

(** One entry of [host_data]. *)
Record HostData := {
  all_urls : list pystr;
  rep_url : option pystr
}.

(** The third component of what [fallback_test] returns: the dict
    [{"latency", "type", "url"}] of a successful alternate, the verdict
    [last_res], or the dict [{"latency": 999, "type": "all_failed"}]. *)
Inductive FinalResult :=
| Hit (latency : Q) (type : pystr) (url : pystr)
| Last (last_res : Verdict.t)
| AllFailed.

Definition final_latency (f : FinalResult) : Q :=
  match f with
  | Hit l _ _ => l
  | Last v => Verdict.latency v
  | AllFailed => 999
  end.

Definition final_type (f : FinalResult) : pystr :=
  match f with
  | Hit _ t _ => t
  | Last v => Verdict.type v
  | AllFailed => str "all_failed"
  end.

Definition KeyError (k : pystr) : exn := Exn (str "KeyError") k.

(** [final_result["url"]] *)
Definition final_url {S} (f : FinalResult) : M S pystr :=
  match f with
  | Hit _ _ u => ret u
  | _ => raise (KeyError (str "'url'"))
  end.

(** A prober call on behalf of a host, as the log records it. *)
Record ProbeCall := {
  pc_host : pystr;
  pc_url : pystr;
  pc_verdict : Verdict.t
}.

(** An insertion-ordered dict that the code iterates over. *)
Definition dict (K V : Type) : Type := list (K * V).

(** [d[k]] *)
Fixpoint dict_get {K V} `{EqDecision K} (k : K) (d : dict K V) : option V :=
  match d with
  | [] => None
  | (k', v) :: d' => if decide (k = k') then Some v else dict_get k d'
  end.

Section HostTester.
Context `{PyLib} {World : Type} `{Net World}.
Local Open Scope py_scope.

Local Abbreviation T := (M (Run World ProbeCall)).

(** [is_valid_hls_stream(url)] run for [host]; the call is logged with
    the verdict it returned. *)
Definition probe (host url : pystr) : T Verdict.t :=
  res <- in_world (is_valid_hls_stream url Config.TIMEOUT) ;;
  log_call {| pc_host := host; pc_url := url; pc_verdict := res |} ;;;
  ret res.

(** [next((u for u in urls if u.endswith(Config.HLS_EXTENSIONS)), urls[0])
    if urls else None] *)
Definition choose_rep_url (urls : list pystr) : option pystr :=
  match urls with
  | [] => None
  | u0 :: _ =>
      Some (default u0 (List.find (endswith_any Config.HLS_EXTENSIONS) urls))
  end.

Definition build_host_data (host_to_urls : dict pystr (list pystr))
  : dict pystr HostData :=
  map (fun '(host, urls) =>
         (host, {| all_urls := urls; rep_url := choose_rep_url urls |}))
      host_to_urls.

(** Phase 1: the representative of every host is submitted to the pool
    and the results are collected; the pool is run here as one worker
    taking the tasks in submission order. *)
Definition phase1_step (entry : pystr * HostData)
    (acc : gmap pystr Verdict.t * gmap pystr HostQuality.t)
  : T (gmap pystr Verdict.t * gmap pystr HostQuality.t) :=
  let '(host, data) := entry in
  let '(initial_results, host_quality) := acc in
  match rep_url data with
  | Some rep =>
      if truthy rep then
        result <- probe host rep ;;
        let initial_results := <[host := result]> initial_results in
        if Verdict.alive result then
          ret (initial_results,
               <[host := HostQuality.Make true (Verdict.latency result)
                           (Verdict.type result) (rep_url data) 1]> host_quality)
        else ret (initial_results, host_quality)
      else ret acc
  | None => ret acc
  end.

(** Phase 2, selection of the hosts to retry. *)
Definition select_step (entry : pystr * HostData)
    (acc : list (pystr * list pystr) * gmap pystr HostQuality.t)
  : list (pystr * list pystr) * gmap pystr HostQuality.t :=
  let '(host, data) := entry in
  let '(hosts_to_retry, host_quality) := acc in
  if decide (host_quality !! host = None) then
    let candidates :=
      List.filter (fun u => negb (bool_decide (Some u = rep_url data)))
                  (all_urls data) in
    match candidates with
    | _ :: _ => (hosts_to_retry ++ [(host, take 3 candidates)], host_quality)
    | [] =>
        (hosts_to_retry,
         <[host := HostQuality.Make false 999 (str "no_fallback")
                     (rep_url data) 1]> host_quality)
    end
  else acc.

(** The [for] loop of [fallback_test]; [i] is the index [enumerate]
    gives the head of [candidates]. *)
Fixpoint fallback_loop (host : pystr) (candidates : list pystr) (i : Z)
  : T (option (FinalResult * Z)) :=
  match candidates with
  | [] => ret None
  | url :: rest =>
      res <- probe host url ;;
      if Verdict.alive res then
        ret (Some (Hit (Verdict.latency res) (Verdict.type res) url, i + 1))
      else fallback_loop host rest (i + 1)
  end.

Definition fallback_test (args : pystr * list pystr)
  : T (pystr * bool * FinalResult * Z) :=
  let '(host, candidates) := args in
  found <- fallback_loop host candidates 0 ;;
  match found with
  | Some (final_result, n) => ret (host, true, final_result, n)
  | None =>
      last_res <- match last candidates with
                  | Some url => res <- probe host url ;; ret (Some res)
                  | None => ret None
                  end ;;
      ret (host, false,
           match last_res with Some res => Last res | None => AllFailed end,
           Z.of_nat (length candidates))
  end.

(** Phase 2, one task of the pool and the collection of its result. *)
Definition phase2_step (host_data : dict pystr HostData)
    (args : pystr * list pystr) (host_quality : gmap pystr HostQuality.t)
  : T (gmap pystr HostQuality.t) :=
  r <- fallback_test args ;;
  let '(host, success, final_result, trials) := r in
  match dict_get host host_data with
  | None => raise (KeyError host)
  | Some data =>
      if success : bool then
        url <- final_url final_result ;;
        ret (<[host := HostQuality.Make true (final_latency final_result)
                         (final_type final_result) (Some url) (1 + trials)]>
               host_quality)
      else
        ret (<[host := HostQuality.Make false (final_latency final_result)
                         (final_type final_result) (rep_url data) (1 + trials)]>
               host_quality)
  end.

(** The function up to its [return]; the log lines and the debug file
    written before it do not touch [host_quality]. *)
Definition test_hosts_two_phase (host_to_urls : dict pystr (list pystr))
  : T (gmap pystr HostQuality.t) :=
  let host_data := build_host_data host_to_urls in
  r1 <- for_each phase1_step host_data (∅, ∅) ;;
  let host_quality := snd r1 in
  let '(hosts_to_retry, host_quality) :=
    foldl (fun acc entry => select_step entry acc) ([], host_quality) host_data in
  match hosts_to_retry with
  | _ :: _ => for_each (phase2_step host_data) hosts_to_retry host_quality
  | [] => ret host_quality
  end.
End HostTester.

(** ** Channel Candidate Resolver *)

(** One entry of a channel's list in [grouped]. *)
Module Item.
Record t := Make {
  url : pystr;
  original_name : pystr
}.
End Item.

(** One entry of [candidates]. *)
Module Candidate.
Record t := Make {
  url : pystr;
  latency : Q;
  original_name : pystr
}.
End Candidate.

(** One entry of [final_channels]. *)
Module Selected.
Record t := Make {
  channel : pystr;
  original_name : pystr;
  url : pystr
}.
End Selected.

(** A confirmatory probe made for a channel, as the log records it. *)
Record ConfirmCall := {
  cc_channel : pystr;
  cc_url : pystr;
  cc_passed : bool
}.

(** [candidates.sort(key=lambda x: x["latency"])]: the stable sort on the
    key.  [sort_insert c l] puts [c], which stood before all of [l], in
    front of the first element whose key is not smaller. *)
Fixpoint sort_insert (c : Candidate.t) (l : list Candidate.t) : list Candidate.t :=
  match l with
  | [] => [c]
  | d :: l' =>
      if Qle_bool (Candidate.latency c) (Candidate.latency d) then c :: d :: l'
      else d :: sort_insert c l'
  end.

Definition sort_by_latency (l : list Candidate.t) : list Candidate.t :=
  foldr sort_insert [] l.

(** [host and host_quality.get(host, {}).get("alive")] for
    [host = url_to_host.get(url)], with the record it found. *)
Definition alive_host (url_to_host : gmap pystr pystr)
    (host_quality : gmap pystr HostQuality.t) (url : pystr)
  : option HostQuality.t :=
  match url_to_host !! url with
  | Some host =>
      if truthy host then
        match host_quality !! host with
        | Some q => if HostQuality.alive q then Some q else None
        | None => None
        end
      else None
  | None => None
  end.

(** The inner loop of the first pass: the candidates of one channel. *)
Definition candidates_of (url_to_host : gmap pystr pystr)
    (host_quality : gmap pystr HostQuality.t) (items : list Item.t)
  : list Candidate.t :=
  foldl (fun candidates item =>
           match alive_host url_to_host host_quality (Item.url item) with
           | Some q =>
               candidates ++ [Candidate.Make (Item.url item) (HostQuality.latency q)
                                (Item.original_name item)]
           | None => candidates
           end) [] items.

(** The first pass: [channel_to_candidates]. *)
Definition build_channel_to_candidates (grouped : dict pystr (list Item.t))
    (url_to_host : gmap pystr pystr) (host_quality : gmap pystr HostQuality.t)
  : dict pystr (list Candidate.t) :=
  foldl (fun channel_to_candidates '(clean_name, items) =>
           let candidates := candidates_of url_to_host host_quality items in
           match candidates with
           | _ :: _ =>
               channel_to_candidates ++ [(clean_name, sort_by_latency candidates)]
           | [] => channel_to_candidates
           end) [] grouped.

Section Resolver.
Context `{PyLib} {World : Type} `{Net World}.
Local Open Scope py_scope.

Local Abbreviation R := (M (Run World ConfirmCall)).

(** [test_single_stream(url)] run for a channel; the call is logged with
    its answer. *)
Definition confirm (clean_name url : pystr) : R bool :=
  ok <- in_world (test_single_stream url Config.TIMEOUT) ;;
  log_call {| cc_channel := clean_name; cc_url := url; cc_passed := ok |} ;;;
  ret ok.

(** [for cand in candidates: if test_single_stream(cand["url"]): selected
    = {...}; break] *)
Fixpoint select_first (clean_name : pystr) (candidates : list Candidate.t)
  : R (option Selected.t) :=
  match candidates with
  | [] => ret None
  | cand :: rest =>
      ok <- confirm clean_name (Candidate.url cand) ;;
      if ok then
        ret (Some (Selected.Make clean_name (Candidate.original_name cand)
                     (Candidate.url cand)))
      else select_first clean_name rest
  end.

Definition resolve_step (entry : pystr * list Candidate.t)
    (final_channels : list Selected.t) : R (list Selected.t) :=
  let '(clean_name, candidates) := entry in
  selected <- select_first clean_name candidates ;;
  match selected with
  | Some sel => ret (final_channels ++ [sel])
  | None => ret final_channels
  end.

Definition build_final_playlist (grouped : dict pystr (list Item.t))
    (url_to_host : gmap pystr pystr) (host_quality : gmap pystr HostQuality.t)
  : R (list Selected.t) :=
  let channel_to_candidates :=
    build_channel_to_candidates grouped url_to_host host_quality in
  for_each resolve_step channel_to_candidates [].
End Resolver.

(** ** A concrete runtime for the examples

    What CPython's [urllib.parse] computes on URLs made of ASCII
    characters whose authority has no square brackets, which is all the
    examples below use.  Outside that fragment the library does more
    (IPv6 literals, NFKC checks on the authority, Unicode case mapping
    and UTF-8 sequences); this model does not follow it there. *)

Module CPython.
Local Open Scope N_scope.

Definition is_ascii_alpha (c : N) : bool :=
  (65 <=? c) && (c <=? 90) || (97 <=? c) && (c <=? 122).

Definition is_ascii_digit (c : N) : bool := (48 <=? c) && (c <=? 57).

(** [scheme_chars]: letters, digits, [+], [-], [.] *)
Definition is_scheme_char (c : N) : bool :=
  is_ascii_alpha c || is_ascii_digit c || (c =? 43) || (c =? 45) || (c =? 46).

Definition ascii_lower (s : pystr) : pystr :=
  map (fun c => if (65 <=? c) && (c <=? 90) then c + 32 else c) s.

(** [s.partition(sep)] for a one-character separator: the text before its
    first occurrence and, when it occurs, the text after. *)
Fixpoint partition (sep : N) (s : pystr) : pystr * option pystr :=
  match s with
  | [] => ([], None)
  | c :: s' =>
      if c =? sep then ([], Some s')
      else let '(before, after) := partition sep s' in (c :: before, after)
  end.

(** The last component of [s.rpartition(sep)]. *)
Fixpoint after_last (sep : N) (s : pystr) : pystr :=
  match s with
  | [] => []
  | c :: s' =>
      if bool_decide (sep ∈ s') then after_last sep s'
      else if c =? sep then s' else s
  end.

Fixpoint drop_while (P : N -> bool) (s : pystr) : pystr :=
  match s with
  | c :: s' => if P c then drop_while P s' else s
  | [] => []
  end.

Fixpoint take_while (P : N -> bool) (s : pystr) : pystr :=
  match s with
  | c :: s' => if P c then c :: take_while P s' else []
  | [] => []
  end.

(** [int(digits)] for ASCII decimal digits. *)
Definition int_of_digits (ds : pystr) : Z :=
  fold_left (fun acc c => (10 * acc + Z.of_N (c - 48))%Z) ds 0%Z.

Definition ValueError (msg : string) : exn := Exn (str "ValueError") (str msg).

(** The [port] property. *)
Definition port_of (p : option pystr) : Outcome (option Z) :=
  match p with
  | None | Some [] => Return None
  | Some ds =>
      if forallb is_ascii_digit ds then
        let n := int_of_digits ds in
        if (n <=? 65535)%Z then Return (Some n)
        else Raise (ValueError "Port out of range 0-65535")
      else Raise (ValueError "Port could not be cast to integer value")
  end.

(** The [hostname] property: the part before a [%] is lowercased. *)
Definition hostname_of (h : pystr) : option pystr :=
  match h with
  | [] => None
  | _ :: _ =>
      let '(name, zone) := partition 37 h in
      Some (ascii_lower name ++ match zone with Some z => 37 :: z | None => [] end)
  end.

Definition urlparse (u : pystr) : Outcome ParseResult :=
  (* leading C0 controls and spaces go, tabs and newlines go everywhere *)
  let url := List.filter (fun c => negb (bool_decide (c ∈ [9; 10; 13])))
                         (drop_while (fun c => c <=? 32) u) in
  let '(scheme, url) :=
    match partition 58 url with
    | (c :: pre, Some post) =>
        if is_ascii_alpha c && forallb is_scheme_char (c :: pre)
        then (ascii_lower (c :: pre), post) else ([], url)
    | _ => ([], url)
    end in
  let netloc :=
    if startswith (str "//") url
    then take_while (fun c => negb (bool_decide (c ∈ [47; 63; 35]))) (drop 2 url)
    else [] in
  if bool_decide (91 ∈ netloc ∨ 93 ∈ netloc)
  then Raise (ValueError "Invalid IPv6 URL")
  else
    let '(host, port) := partition 58 (after_last 64 netloc) in
    Return {| scheme := scheme; hostname := hostname_of host; port := port_of port |}.

(** On bytes below 128 this is what UTF-8 decoding yields. *)
Definition decode_utf8_ignore (b : pybytes) : pystr :=
  List.filter (fun c => c <? 128) (map Byte.to_N b).

Definition lib : PyLib :=
  Build_PyLib urlparse decode_utf8_ignore ascii_lower.
End CPython.

(** [s.encode()] for an ASCII literal. *)
Definition bytes_of (s : string) : pybytes := list_byte_of_string s.

(** ** A scripted world for the examples

    The [n]-th [HEAD] request gets the [n]-th scripted answer, likewise
    the [GET] requests; once a script is used up the connection is
    refused.  The clock advances by one with every request.  No deep
    validator is installed. *)

Module Scripted.
Record World := Make {
  clock : Z;
  heads : list (Outcome Z);
  gets : list (Outcome Response)
}.

Definition ConnectionError : exn := Exn (str "ConnectionError") (str "connection refused").

Definition head (_ : pystr) (_ : Z) : M World Z :=
  fun w =>
    match heads w with
    | o :: rest => (o, Make (clock w + 1) rest (gets w))
    | [] => (Raise ConnectionError, Make (clock w + 1) [] (gets w))
    end.

Definition get (_ : pystr) (_ : Z) : M World Response :=
  fun w =>
    match gets w with
    | o :: rest => (o, Make (clock w + 1) (heads w) rest)
    | [] => (Raise ConnectionError, Make (clock w + 1) (heads w) [])
    end.

Definition net : Net World :=
  {| time_time := fun w => (inject_Z (clock w), w);
     requests_head := head;
     requests_get := get;
     is_ffmpeg_available := ret false;
     run_ffprobe := fun _ _ => ret false;
     is_ocr_available := ret false;
     run_ocr_check := fun _ _ => ret false |}.

(** A response with status 200 and the given body in one chunk. *)
Definition ok (body : string) : Outcome Response :=
  Return {| status_code := 200; chunks := [bytes_of body]; broken := None |}.

Definition manifest : string := "#EXTM3U
#EXTINF:-1,One
http://a.test/one.ts
".
End Scripted.

(** ** Example inputs *)

Module Example.
Definition host_a : pystr := str "a.test:80".
Definition rep_a : pystr := str "http://a.test/live/one.m3u8".
Definition alt_a1 : pystr := str "http://a.test/live/two.m3u8".
Definition alt_a2 : pystr := str "http://a.test/live/three.m3u8".
Definition alt_a3 : pystr := str "http://a.test/live/four.m3u8".
Definition alt_a4 : pystr := str "http://a.test/live/five.m3u8".
Definition host_b : pystr := str "b.test:8080".
Definition rep_b : pystr := str "http://b.test:8080/tv.m3u8".

(** Host [a] with one alternate, host [b] with none. *)
Definition two_hosts : dict pystr (list pystr) :=
  [(host_a, [rep_a; alt_a1]); (host_b, [rep_b])].

(** Host [a] with four alternates. *)
Definition many_alternates : dict pystr (list pystr) :=
  [(host_a, [rep_a; alt_a1; alt_a2; alt_a3; alt_a4])].

(** A fresh run in a scripted world. *)
Definition start {Call} (heads : list (Outcome Z)) (gets : list (Outcome Response))
  : Run Scripted.World Call :=
  MkRun (Scripted.Make 0 heads gets) [].

(** Every connection is refused. *)
Definition offline {Call} : Run Scripted.World Call := start [] [].

(** Channel [X] of the specification's scenario: three candidates, on a
    dead host (400 ms), on a live host at 100 ms and on a live host at
    250 ms. *)
Definition url_x1 : pystr := str "http://dead.test/x.m3u8".
Definition url_x2 : pystr := str "http://fast.test/x.m3u8".
Definition url_x3 : pystr := str "http://slow.test/x.m3u8".

Definition grouped_x : dict pystr (list Item.t) :=
  [(str "X", [Item.Make url_x1 (str "X HD"); Item.Make url_x2 (str "X 1");
              Item.Make url_x3 (str "X 2")])].

Definition url_to_host_x : gmap pystr pystr :=
  {[ url_x1 := str "dead.test:80"; url_x2 := str "fast.test:80";
     url_x3 := str "slow.test:80" ]}.

Definition host_quality_x : gmap pystr HostQuality.t :=
  {[ str "dead.test:80" := HostQuality.Make false (4 # 10) (str "dead") (Some url_x1) 2;
     str "fast.test:80" := HostQuality.Make true (1 # 10) (str "media") (Some url_x2) 1;
     str "slow.test:80" := HostQuality.Make true (25 # 100) (str "media") (Some url_x3) 1 ]}.

(** A response with the given status and no body. *)
Definition status (code : Z) : Outcome Response :=
  Return {| status_code := code; chunks := []; broken := None |}.

(** [tester] and [resolver] are the two components run with the concrete
    runtime in the scripted world. *)
Definition tester := @test_hosts_two_phase CPython.lib _ Scripted.net.
Definition resolver := @build_final_playlist CPython.lib _ Scripted.net.
End Example.

(** ** Reading the logs *)

(** The prober calls of a log made for one host. *)
Definition for_host (host : pystr) (log : list ProbeCall) : list ProbeCall :=
  filter (fun c => pc_host c = host) log.


(** The alternates phase 2 selects for a host with the URLs [urls]:
    [candidates[:3]]. *)
Definition alternates (urls : list pystr) : list pystr :=
  take 3 (List.filter (fun u => negb (bool_decide (Some u = choose_rep_url urls)))
                      urls).

(** [log] is one probe of each of [urls], in this order, made for [host],
    and each came back not alive. *)
Definition failed_probes (host : pystr) (urls : list pystr) (log : list ProbeCall)
  : Prop :=
  map pc_url log = urls /\
  Forall (fun c => pc_host c = host /\ Verdict.alive (pc_verdict c) = false) log.

(** What phase 1 logs for a host that it leaves without a record: nothing
    when there is no representative to probe ([None] or the empty
    string), else the one probe of the representative, not alive. *)
Definition phase1_failed (host : pystr) (rep : option pystr) (log : list ProbeCall)
  : Prop :=
  match rep with
  | Some (c :: r) =>
      exists v, log = [Build_ProbeCall host (c :: r) v] /\ Verdict.alive v = false
  | _ => log = []
  end.

(** The four ways a host with the URLs [urls] ends up: the calls made for
    it, in order, and the record written for it. *)
Inductive host_outcome (host : pystr) (urls : list pystr)
  : list ProbeCall -> HostQuality.t -> Prop :=
| outcome_rep_alive rep v :
    choose_rep_url urls = Some rep -> truthy rep = true ->
    Verdict.alive v = true ->
    host_outcome host urls [Build_ProbeCall host rep v]
      (HostQuality.Make true (Verdict.latency v) (Verdict.type v) (Some rep) 1)
| outcome_no_fallback l1 :
    phase1_failed host (choose_rep_url urls) l1 ->
    alternates urls = [] ->
    host_outcome host urls l1
      (HostQuality.Make false 999 (str "no_fallback") (choose_rep_url urls) 1)
| outcome_fallback_alive l1 before url after l2 v :
    phase1_failed host (choose_rep_url urls) l1 ->
    alternates urls = before ++ url :: after ->
    failed_probes host before l2 ->
    Verdict.alive v = true ->
    host_outcome host urls (l1 ++ l2 ++ [Build_ProbeCall host url v])
      (HostQuality.Make true (Verdict.latency v) (Verdict.type v) (Some url)
         (1 + (Z.of_nat (length before) + 1)))
| outcome_fallback_dead l1 l2 url v :
    phase1_failed host (choose_rep_url urls) l1 ->
    last (alternates urls) = Some url ->
    failed_probes host (alternates urls) l2 ->
    host_outcome host urls (l1 ++ l2 ++ [Build_ProbeCall host url v])
      (HostQuality.Make false (Verdict.latency v) (Verdict.type v)
         (choose_rep_url urls) (1 + Z.of_nat (length (alternates urls)))).

(** What phase 1 does for one host: the record before and after, and the
    calls logged. *)
Definition phase1_post (host : pystr) (data : HostData)
    (q0 q : option HostQuality.t) (l : list ProbeCall) : Prop :=
  (exists rep v,
     rep_url data = Some rep /\ truthy rep = true /\ Verdict.alive v = true /\
     l = [Build_ProbeCall host rep v] /\
     q = Some (HostQuality.Make true (Verdict.latency v) (Verdict.type v)
                 (Some rep) 1)) \/
  (phase1_failed host (rep_url data) l /\ q = q0).

(** What phase 2 does for one host it retries with [candidates]: the
    calls logged and the record written. *)
Definition phase2_post (host : pystr) (candidates : list pystr) (data : HostData)
    (q : option HostQuality.t) (l : list ProbeCall) : Prop :=
  (exists before url after l2 v,
     candidates = before ++ url :: after /\
     failed_probes host before l2 /\
     Verdict.alive v = true /\
     l = l2 ++ [Build_ProbeCall host url v] /\
     q = Some (HostQuality.Make true (Verdict.latency v) (Verdict.type v) (Some url)
                 (1 + (Z.of_nat (length before) + 1)))) \/
  (exists l2 url v,
     last candidates = Some url /\
     failed_probes host candidates l2 /\
     l = l2 ++ [Build_ProbeCall host url v] /\
     q = Some (HostQuality.Make false (Verdict.latency v) (Verdict.type v)
                 (rep_url data) (1 + Z.of_nat (length candidates)))) \/
  (candidates = [] /\ l = [] /\
   q = Some (HostQuality.Make false 999 (str "all_failed") (rep_url data) (1 + 0))).

(** What the selection loop does for one host: nothing when phase 1 gave
    it a record; else either the [no_fallback] record, or an entry of
    [hosts_to_retry] with its first three alternates. *)
Definition select_post (host : pystr) (data : HostData)
    (q0 q : option HostQuality.t) (new : list (pystr * list pystr)) : Prop :=
  match q0 with
  | Some _ => q = q0 /\ host ∉ new.*1
  | None =>
      let candidates :=
        List.filter (fun u => negb (bool_decide (Some u = rep_url data)))
                    (all_urls data) in
      match candidates with
      | [] => q = Some (HostQuality.Make false 999 (str "no_fallback")
                          (rep_url data) 1) /\ host ∉ new.*1
      | _ :: _ => q = None /\ (host, take 3 candidates) ∈ new
      end
  end.


(** One confirmatory probe of each of [candidates] for the channel, in
    this order, none of which passed. *)
Definition failed_confirms (clean_name : pystr) (candidates : list Candidate.t)
  : list ConfirmCall :=
  map (fun c => Build_ConfirmCall clean_name (Candidate.url c) false) candidates.

(** What the resolver does with one channel and its sorted candidates:
    the calls logged and the entries of [final_channels] before and
    after. *)
Definition resolve_post (clean_name : pystr) (candidates : list Candidate.t)
    (f0 f : list Selected.t) (l : list ConfirmCall) : Prop :=
  (exists before cand after,
     candidates = before ++ cand :: after /\
     l = failed_confirms clean_name before
         ++ [Build_ConfirmCall clean_name (Candidate.url cand) true] /\
     f = f0 ++ [Selected.Make clean_name (Candidate.original_name cand)
                  (Candidate.url cand)]) \/
  (l = failed_confirms clean_name candidates /\ f = f0).

(** The first pass as a filter over the items. *)
Definition candidate_of (url_to_host : gmap pystr pystr)
    (host_quality : gmap pystr HostQuality.t) (item : Item.t) : option Candidate.t :=
  q ← alive_host url_to_host host_quality (Item.url item);
  Some (Candidate.Make (Item.url item) (HostQuality.latency q) (Item.original_name item)).

(** One step of the first pass. *)
Definition channel_entry (url_to_host : gmap pystr pystr)
    (host_quality : gmap pystr HostQuality.t) (entry : pystr * list Item.t)
  : option (pystr * list Candidate.t) :=
  match candidates_of url_to_host host_quality entry.2 with
  | [] => None
  | _ :: _ => Some (entry.1, sort_by_latency
                               (candidates_of url_to_host host_quality entry.2))
  end.

(** * Properties *)

(** ** Strings *)






(** ** Running a computation *)

Lemma bind_return {S A B} (m : M S A) (k : A -> M S B) s a s' :
  m s = (Return a, s') -> bind m k s = k a s'.
Proof. unfold bind. by intros ->. Qed.

Lemma bind_raise {S A B} (m : M S A) (k : A -> M S B) s e s' :
  m s = (Raise e, s') -> bind m k s = (Raise e, s').
Proof. unfold bind. by intros ->. Qed.

Lemma try_except_returns {S A} (m : M S A) (h : exn -> M S A) :
  (forall e s, exists a s', h e s = (Return a, s')) ->
  forall s, exists a s', try_except m h s = (Return a, s').
Proof.
  intros Hh s. unfold try_except.
  destruct (m s) as [[a|e] s']; [by exists a, s' | apply Hh].
Qed.

(** ** Prober *)

Section ProberFacts.
Context `{PyLib} {World : Type} `{Net World}.

Lemma now_returns (w : World) :
  now w = (Return (time_time w).1, (time_time w).2).
Proof. unfold now. by destruct (time_time w). Qed.


(** The prober hands every exception of its body to its handler, which
    builds a verdict: it returns on every input and in every world. *)
Lemma is_valid_hls_stream_returns (url : pystr) (timeout : Z) (w : World) :
  exists v w', is_valid_hls_stream url timeout w = (Return v, w').
Proof.
  unfold is_valid_hls_stream.
  rewrite (bind_return _ _ _ _ _ (now_returns w)).
  apply try_except_returns. intros e s.
  rewrite (bind_return _ _ _ _ _ (now_returns s)). unfold ret. eauto.
Qed.

Lemma test_single_stream_returns (url : pystr) (timeout : Z) (w : World) :
  exists b w', test_single_stream url timeout w = (Return b, w').
Proof.
  unfold test_single_stream. apply try_except_returns.
  intros e s. unfold ret. eauto.
Qed.
End ProberFacts.

(** ** Content classification *)

Section ContentClassification.
Context `{PyLib} {World : Type} `{Net World}.

End ContentClassification.



(** ** Host Resolver *)

Section HostResolverFacts.
Context `{PyLib}.

(** C9 (amended).  [get_host_key] is a function of the URL alone.  For a
    URL with a hostname it returns ["host:port"]: with the scheme default
    (443 for [https], 80 otherwise) when the URL gives no port, with the
    port of the URL when that is a number other than 0.  It returns
    nothing exactly when [urlparse] raises, when the URL has no hostname,
    or when reading the port raises (a port that is no number or is out of
    range). *)
Theorem get_host_key_spec (u : pystr) :
  (forall p h, urlparse u = Return p -> hostname p = Some h -> h <> [] ->
     port p = Return None ->
     get_host_key u =
       Some (h ++ str ":" ++
             str_of_Z (if decide (scheme p = str "https") then 443 else 80))) /\
  (forall p h n, urlparse u = Return p -> hostname p = Some h -> h <> [] ->
     port p = Return (Some n) -> n <> 0 ->
     get_host_key u = Some (h ++ str ":" ++ str_of_Z n)) /\
  (get_host_key u = None <->
     (exists e, urlparse u = Raise e) \/
     (exists p, urlparse u = Return p /\
        (hostname p = None \/ hostname p = Some [] \/ exists e, port p = Raise e))).
Proof.
  unfold get_host_key, host_key_of, port_or_default.
  split; [|split; [|split]].
  - intros p h -> -> Hh ->. by destruct h.
  - intros p h n -> -> Hh -> Hn. destruct h; [done|]. cbn [truthy].
    by rewrite decide_False.
  - destruct (urlparse u) as [p|e]; [|eauto].
    intros Hnone. right. exists p. split; [done|].
    destruct (port p) as [po|e]; [|eauto].
    destruct (hostname p) as [[|c h]|]; auto. discriminate.
  - intros [[e ->]|[p [-> Hp]]]; [done|].
    destruct Hp as [-> | [-> | [e ->]]]; try done; by destruct (port p).
Qed.
End HostResolverFacts.

(** [get_host_key_spec] at a URL with an explicit port. *)
Lemma get_host_key_spec_witness :
  @get_host_key CPython.lib (str "https://Example.com:8443/live/one.m3u8")
  = Some (str "example.com" ++ str ":" ++ str_of_Z 8443).
Proof.
  destruct (@get_host_key_spec CPython.lib
              (str "https://Example.com:8443/live/one.m3u8")) as [_ [Hport _]].
  eapply Hport; [reflexivity | reflexivity | discriminate | reflexivity | discriminate].
Defined.

(** C9, as stated, fails twice over.  The first URL has the explicit port
    0 and still gets the scheme default; the second has a hostname that
    parses, but its port is out of range, and the resolver returns
    nothing. *)
Lemma explicit_port_not_always_kept :
  (exists p,
     CPython.urlparse (str "http://example.com:0/live.m3u8") = Return p /\
     hostname p = Some (str "example.com") /\ port p = Return (Some 0) /\
     @get_host_key CPython.lib (str "http://example.com:0/live.m3u8")
     = Some (str "example.com:80")) /\
  (exists p e,
     CPython.urlparse (str "http://example.com:99999/live.m3u8") = Return p /\
     hostname p = Some (str "example.com") /\ port p = Raise e /\
     @get_host_key CPython.lib (str "http://example.com:99999/live.m3u8") = None).
Proof.
  split.
  - eexists. split; [reflexivity|]. repeat split; vm_compute; reflexivity.
  - do 2 eexists. split; [reflexivity|]. repeat split; vm_compute; reflexivity.
Qed.

(** ** The probers never raise *)

Section NeverRaise.
Context `{PyLib} {World : Type} `{Net World}.

End NeverRaise.



(** ** Loops over a dict

    A loop whose body, run for the key [k], logs calls tagged [k] only
    and changes what the accumulator shows at [k] only, can be read key
    by key. *)

Section KeyedLoop.
Context {World Call K X Acc V : Type} `{EqDecision K}.
Variable tag : Call -> K.
Variable view : Acc -> K -> V.
Variable step : K * X -> Acc -> M (Run World Call) Acc.
Variable Pre : K -> X -> Prop.
Variable Post : K -> X -> V -> V -> list Call -> Prop.

Hypothesis step_spec : forall k x acc s, Pre k x ->
  exists acc' s' l,
    step (k, x) acc s = (Return acc', s') /\
    calls s' = calls s ++ l /\
    Forall (fun c => tag c = k) l /\
    (forall h, h <> k -> view acc' h = view acc h) /\
    Post k x (view acc k) (view acc' k) l.

Lemma filter_tag_same (k : K) (l : list Call) :
  Forall (fun c => tag c = k) l -> filter (fun c => tag c = k) l = l.
Proof.
  induction 1 as [|c l Hc Hl IH]; [done|].
  rewrite filter_cons_True by done. by rewrite IH.
Qed.

Lemma filter_tag_none (k : K) (l : list Call) :
  Forall (fun c => tag c <> k) l -> filter (fun c => tag c = k) l = [].
Proof.
  induction 1 as [|c l Hc Hl IH]; [done|].
  by rewrite filter_cons_False.
Qed.

Lemma for_each_keyed (l : list (K * X)) :
  NoDup l.*1 -> Forall (fun e => Pre e.1 e.2) l ->
  forall acc s, exists acc' s' log,
    for_each step l acc s = (Return acc', s') /\
    calls s' = calls s ++ log /\
    Forall (fun c => tag c ∈ l.*1) log /\
    (forall h, h ∉ l.*1 -> view acc' h = view acc h) /\
    (forall k x, (k, x) ∈ l ->
       Post k x (view acc k) (view acc' k) (filter (fun c => tag c = k) log)).
Proof.
  induction l as [|[k0 x0] l IH]; intros Hnd Hpre acc s.
  - exists acc, s, []. simpl. unfold ret. rewrite app_nil_r.
    repeat split; try done. intros k x Hin. by apply elem_of_nil in Hin.
  - cbn [fmap list_fmap fst] in Hnd. apply NoDup_cons in Hnd as [Hk0 Hnd].
    apply Forall_cons in Hpre as [Hpre0 Hpre].
    destruct (step_spec k0 x0 acc s Hpre0) as (acc1 & s1 & l0 & Hs & Hc & Ht & Hv & Hp).
    destruct (IH Hnd Hpre acc1 s1) as (acc' & s' & log & Hs' & Hc' & Ht' & Hv' & Hp').
    exists acc', s', (l0 ++ log). cbn [for_each].
    rewrite (bind_return _ _ _ _ _ Hs). split; [exact Hs'|].
    split; [by rewrite Hc', Hc, app_assoc|].
    assert (Hlog0 : filter (fun c => tag c = k0) log = []).
    { apply filter_tag_none. eapply Forall_impl; [exact Ht'|].
      intros c Hin Heq. cbn in Hin. by rewrite Heq in Hin. }
    split; [|split].
    + apply Forall_app. split.
      * eapply Forall_impl; [exact Ht|]. intros c ->. cbn. apply elem_of_cons. by left.
      * eapply Forall_impl; [exact Ht'|]. intros c Hin. cbn. apply elem_of_cons. by right.
    + intros h Hh. cbn in Hh. apply not_elem_of_cons in Hh as [Hne Hh].
      by rewrite Hv', Hv.
    + intros k x Hin. apply elem_of_cons in Hin as [Heq|Hin].
      * injection Heq as -> ->. rewrite filter_app, Hlog0, app_nil_r.
        rewrite filter_tag_same by done. by rewrite Hv'.
      * assert (Hk : k ∈ l.*1) by (apply (list_elem_of_fmap_2 fst _ (k, x)); done).
        assert (Hne : k <> k0) by (intros ->; done).
        rewrite filter_app, (filter_tag_none k l0), app_nil_l.
        -- rewrite <- (Hv k Hne). by apply Hp'.
        -- eapply Forall_impl; [exact Ht|]. intros c -> Heq. by apply Hne.
Qed.
End KeyedLoop.

(** ** Two-Phase Host Tester *)

Section HostTesterFacts.
Context {lib : PyLib} {World : Type} {net : Net World}.

Local Abbreviation T := (M (Run World ProbeCall)).

Lemma probe_spec (host url : pystr) (s : Run World ProbeCall) :
  exists v w',
    probe host url s
    = (Return v, MkRun w' (calls s ++ [Build_ProbeCall host url v])).
Proof.
  destruct (is_valid_hls_stream_returns url Config.TIMEOUT (world s)) as [v [w' Hv]].
  exists v, w'. unfold probe.
  rewrite (bind_return _ _ s v (MkRun w' (calls s))).
  - reflexivity.
  - unfold in_world. by rewrite Hv.
Qed.

Lemma phase1_step_spec (host : pystr) (data : HostData)
    (acc : gmap pystr Verdict.t * gmap pystr HostQuality.t) (s : Run World ProbeCall) :
  exists acc' s' l,
    phase1_step (host, data) acc s = (Return acc', s') /\
    calls s' = calls s ++ l /\
    Forall (fun c => pc_host c = host) l /\
    (forall h, h <> host -> acc'.2 !! h = acc.2 !! h) /\
    phase1_post host data (acc.2 !! host) (acc'.2 !! host) l.
Proof.
  destruct acc as [ir hq]. unfold phase1_step, phase1_post, phase1_failed.
  destruct (rep_url data) as [[|c r]|] eqn:Hrep; cbn [truthy].
  1,3: exists (ir, hq), s, []; unfold ret; rewrite app_nil_r; repeat split; auto.
  destruct (probe_spec host (c :: r) s) as [v [w' Hv]].
  rewrite (bind_return _ _ _ _ _ Hv).
  destruct (Verdict.alive v) eqn:Halive; unfold ret;
    do 3 eexists; (split; [reflexivity|]); cbn [calls snd];
    (split; [reflexivity|]); (split; [by repeat constructor|]); split.
  - intros h Hne. by rewrite lookup_insert_ne.
  - left. exists (c :: r), v. by rewrite lookup_insert_eq.
  - done.
  - right. eauto.
Qed.

Lemma fallback_loop_spec (host : pystr) (candidates : list pystr) :
  forall (i : Z) (s : Run World ProbeCall),
  exists found s' l,
    fallback_loop host candidates i s = (Return found, s') /\
    calls s' = calls s ++ l /\
    match found with
    | None => failed_probes host candidates l
    | Some (final_result, n) =>
        exists before url after l2 v,
          candidates = before ++ url :: after /\
          failed_probes host before l2 /\
          Verdict.alive v = true /\
          l = l2 ++ [Build_ProbeCall host url v] /\
          final_result = Hit (Verdict.latency v) (Verdict.type v) url /\
          n = i + Z.of_nat (length before) + 1
    end.
Proof.
  induction candidates as [|url rest IH]; intros i s; cbn [fallback_loop].
  - exists None, s, []. unfold ret. rewrite app_nil_r. by repeat split.
  - destruct (probe_spec host url s) as [v [w' Hv]].
    rewrite (bind_return _ _ _ _ _ Hv).
    destruct (Verdict.alive v) eqn:Halive.
    + unfold ret. do 3 eexists. split; [reflexivity|]. split; [reflexivity|].
      exists [], url, rest, [], v. cbn. repeat split; auto. lia.
    + destruct (IH (i + 1) (MkRun w' (calls s ++ [Build_ProbeCall host url v])))
        as (found & s' & l & Hrun & Hcalls & Hfound).
      exists found, s', (Build_ProbeCall host url v :: l).
      split; [exact Hrun|]. split.
      { rewrite Hcalls. cbn [calls]. by rewrite <- app_assoc. }
      destruct found as [[final_result n]|].
      * destruct Hfound as (before & u & after & l2 & v' & -> & [Hurls Hall] & Hv' & -> & -> & ->).
        exists (url :: before), u, after, (Build_ProbeCall host url v :: l2), v'.
        repeat split; auto.
        -- cbn. by rewrite Hurls.
        -- cbn [length]. lia.
      * destruct Hfound as [Hurls Hall]. split.
        -- cbn. by rewrite Hurls.
        -- by constructor.
Qed.

Lemma fallback_test_spec (host : pystr) (candidates : list pystr)
    (s : Run World ProbeCall) :
  exists success final_result n s' l,
    fallback_test (host, candidates) s = (Return (host, success, final_result, n), s') /\
    calls s' = calls s ++ l /\
    Forall (fun c => pc_host c = host) l /\
    ((exists before url after l2 v,
        success = true /\
        candidates = before ++ url :: after /\
        failed_probes host before l2 /\
        Verdict.alive v = true /\
        l = l2 ++ [Build_ProbeCall host url v] /\
        final_result = Hit (Verdict.latency v) (Verdict.type v) url /\
        n = Z.of_nat (length before) + 1) \/
     (exists l2 url v,
        success = false /\
        last candidates = Some url /\
        failed_probes host candidates l2 /\
        l = l2 ++ [Build_ProbeCall host url v] /\
        final_result = Last v /\
        n = Z.of_nat (length candidates)) \/
     (success = false /\ candidates = [] /\ l = [] /\
      final_result = AllFailed /\ n = 0)).
Proof.
  unfold fallback_test.
  destruct (fallback_loop_spec host candidates 0 s)
    as (found & s1 & l1 & Hrun & Hcalls & Hfound).
  rewrite (bind_return _ _ _ _ _ Hrun).
  destruct found as [[final_result n]|].
  - destruct Hfound as (before & url & after & l2 & v & Hc & Hfail & Hv & -> & -> & ->).
    unfold ret. do 5 eexists. split; [reflexivity|]. split; [exact Hcalls|]. split.
    + apply Forall_app. split.
      * eapply Forall_impl; [exact (proj2 Hfail)|]. by intros c [? _].
      * by repeat constructor.
    + left. exists before, url, after, l2, v. repeat split; auto; try apply Hfail.
  - destruct (last candidates) as [url|] eqn:Hlast.
    + destruct (probe_spec host url s1) as [v [w' Hv]].
      rewrite (bind_return _ _ s1 (Some v)
                 (MkRun w' (calls s1 ++ [Build_ProbeCall host url v]))).
      2:{ by rewrite (bind_return _ _ _ _ _ Hv). }
      unfold ret. do 5 eexists. split; [reflexivity|]. cbn [calls]. split.
      { rewrite Hcalls. rewrite <- app_assoc. reflexivity. }
      split.
      * apply Forall_app. split.
        -- eapply Forall_impl; [exact (proj2 Hfound)|]. by intros c [? _].
        -- by repeat constructor.
      * right. left. exists l1, url, v. repeat split; auto; apply Hfound.
    + apply last_None in Hlast. subst candidates.
      destruct Hfound as [Hurls _]. destruct l1; [|discriminate].
      unfold bind, ret. do 5 eexists. split; [reflexivity|].
      split; [exact Hcalls|]. split; [constructor|]. right. right. by repeat split.
Qed.

Lemma phase2_step_spec (host_data : dict pystr HostData) (host : pystr)
    (candidates : list pystr) (hq : gmap pystr HostQuality.t)
    (s : Run World ProbeCall) :
  is_Some (dict_get host host_data) ->
  exists hq' s' l,
    phase2_step host_data (host, candidates) hq s = (Return hq', s') /\
    calls s' = calls s ++ l /\
    Forall (fun c => pc_host c = host) l /\
    (forall h, h <> host -> hq' !! h = hq !! h) /\
    exists data, dict_get host host_data = Some data /\
      phase2_post host candidates data (hq' !! host) l.
Proof.
  intros [data Hdata]. unfold phase2_step.
  destruct (fallback_test_spec host candidates s)
    as (success & final_result & n & s' & l & Hrun & Hcalls & Hhost & Hcases).
  rewrite (bind_return _ _ _ _ _ Hrun). rewrite Hdata.
  destruct Hcases as [Hc|[Hc|Hc]].
  - destruct Hc as (before & url & after & l2 & v & -> & -> & Hfail & Hv & -> & -> & ->).
    cbn [final_url]. unfold bind, ret.
    do 3 eexists. split; [reflexivity|]. split; [exact Hcalls|].
    split; [exact Hhost|]. split.
    + intros h Hne. by rewrite lookup_insert_ne.
    + exists data. split; [done|]. left. exists before, url, after, l2, v.
      rewrite lookup_insert_eq. by repeat split; try apply Hfail.
  - destruct Hc as (l2 & url & v & -> & Hlast & Hfail & -> & -> & ->).
    unfold ret. do 3 eexists. split; [reflexivity|]. split; [exact Hcalls|].
    split; [exact Hhost|]. split.
    + intros h Hne. by rewrite lookup_insert_ne.
    + exists data. split; [done|]. right. left. exists l2, url, v.
      rewrite lookup_insert_eq. by repeat split; try apply Hfail.
  - destruct Hc as (-> & -> & -> & -> & ->).
    unfold ret. do 3 eexists. split; [reflexivity|]. split; [exact Hcalls|].
    split; [exact Hhost|]. split.
    + intros h Hne. by rewrite lookup_insert_ne.
    + exists data. split; [done|]. right. right.
      rewrite lookup_insert_eq. by repeat split.
Qed.

Lemma select_post_app (host : pystr) (data : HostData)
    (q0 q : option HostQuality.t) (n1 n2 : list (pystr * list pystr)) :
  host ∉ n2.*1 ->
  select_post host data q0 q n1 ->
  select_post host data q0 q (n1 ++ n2) /\ select_post host data q0 q (n2 ++ n1).
Proof.
  intros Hn2. unfold select_post.
  destruct q0; [|destruct (List.filter _ _)];
    rewrite ?fmap_app, ?elem_of_app; tauto.
Qed.

Lemma select_step_spec (h0 : pystr) (d0 : HostData)
    (retry : list (pystr * list pystr)) (hq : gmap pystr HostQuality.t) :
  exists new0 hq1,
    select_step (h0, d0) (retry, hq) = (retry ++ new0, hq1) /\
    Forall (fun e => e.1 = h0) new0 /\
    NoDup new0.*1 /\
    (forall h, h <> h0 -> hq1 !! h = hq !! h) /\
    select_post h0 d0 (hq !! h0) (hq1 !! h0) new0.
Proof.
  unfold select_step, select_post.
  destruct (decide (hq !! h0 = None)) as [Hnone|Hsome].
  - rewrite Hnone. destruct (List.filter _ (all_urls d0)) as [|c cs].
    + eexists [], _. rewrite app_nil_r, lookup_insert_eq.
      split; [reflexivity|]. repeat split; try done.
      * constructor.
      * intros h Hne. by rewrite lookup_insert_ne.
      * apply not_elem_of_nil.
    + eexists [_], _. split; [reflexivity|]. repeat split; try done.
      * by repeat constructor.
      * cbn. apply NoDup_singleton.
      * by apply list_elem_of_singleton.
  - exists [], hq. rewrite app_nil_r. split; [reflexivity|].
    destruct (hq !! h0) eqn:Hq; [|done]. repeat split; try done.
    + constructor.
    + apply not_elem_of_nil.
Qed.

Lemma select_spec (host_data : dict pystr HostData) :
  NoDup host_data.*1 ->
  forall (retry : list (pystr * list pystr)) (hq : gmap pystr HostQuality.t),
  exists new hq',
    foldl (fun acc entry => select_step entry acc) (retry, hq) host_data
    = (retry ++ new, hq') /\
    Forall (fun e => e.1 ∈ host_data.*1) new /\
    NoDup new.*1 /\
    (forall h, h ∉ host_data.*1 -> hq' !! h = hq !! h) /\
    (forall h d, (h, d) ∈ host_data -> select_post h d (hq !! h) (hq' !! h) new).
Proof.
  induction host_data as [|[h0 d0] hd IH]; intros Hnd retry hq.
  - exists [], hq. cbn. rewrite app_nil_r.
    split; [done|]. split; [constructor|]. split; [constructor|]. split; [done|].
    intros h d Hin. by apply elem_of_nil in Hin.
  - cbn [fmap list_fmap fst] in Hnd. apply NoDup_cons in Hnd as [Hh0 Hnd].
    cbn [foldl].
    destruct (select_step_spec h0 d0 retry hq)
      as (new0 & hq1 & -> & Htag0 & Hnd0 & Hother & Hpost0).
    destruct (IH Hnd (retry ++ new0) hq1)
      as (new & hq' & Hfold & Htag & Hndn & Hout & Hpost).
    exists (new0 ++ new), hq'. rewrite Hfold, <- app_assoc. split; [reflexivity|].
    assert (Hnew0 : h0 ∉ new.*1).
    { intros Hin. apply list_elem_of_fmap in Hin as [[h' x'] [-> Hin]].
      rewrite Forall_forall in Htag. by apply Htag in Hin. }
    split; [|split; [|split]].
    + apply Forall_app. split.
      * eapply Forall_impl; [exact Htag0|]. intros e ->. cbn. apply elem_of_cons. by left.
      * eapply Forall_impl; [exact Htag|]. intros e He. cbn. apply elem_of_cons. by right.
    + rewrite fmap_app. apply NoDup_app. split; [exact Hnd0|]. split; [|exact Hndn].
      intros h Hin Hin'. apply list_elem_of_fmap in Hin as [[h' x'] [-> Hin]].
      rewrite Forall_forall in Htag0. apply Htag0 in Hin. cbn in Hin. by subst.
    + intros h Hh. cbn in Hh. apply not_elem_of_cons in Hh as [Hne Hh].
      by rewrite Hout, Hother.
    + intros h d Hin. apply elem_of_cons in Hin as [Heq|Hin].
      * injection Heq as -> ->. rewrite (Hout h0 Hh0).
        exact (proj1 (select_post_app _ _ _ _ _ _ Hnew0 Hpost0)).
      * assert (Hk : h ∈ hd.*1) by (apply (list_elem_of_fmap_2 fst _ (h, d)); done).
        assert (Hne : h <> h0) by (intros ->; done).
        specialize (Hpost h d Hin). rewrite (Hother h Hne) in Hpost.
        refine (proj2 (select_post_app _ _ _ _ _ _ _ Hpost)).
        intros Hin'. apply list_elem_of_fmap in Hin' as [[h' x'] [-> Hin']].
        rewrite Forall_forall in Htag0. apply Htag0 in Hin'. cbn in Hin'. by subst.
Qed.

Lemma dict_get_elem_of {K V} `{EqDecision K} (d : dict K V) (k : K) (v : V) :
  NoDup d.*1 -> (k, v) ∈ d -> dict_get k d = Some v.
Proof.
  induction d as [|[k' v'] d IH]; intros Hnd Hin.
  - by apply elem_of_nil in Hin.
  - cbn [fmap list_fmap fst] in Hnd. apply NoDup_cons in Hnd as [Hk' Hnd].
    cbn [dict_get]. apply elem_of_cons in Hin as [Heq|Hin].
    + injection Heq as -> ->. by rewrite decide_True.
    + rewrite decide_False; [by apply IH|].
      intros ->. apply Hk'. by apply (list_elem_of_fmap_2 fst _ (k', v)).
Qed.

Lemma dict_get_is_Some {K V} `{EqDecision K} (d : dict K V) (k : K) :
  k ∈ d.*1 -> is_Some (dict_get k d).
Proof.
  induction d as [|[k' v'] d IH]; intros Hin.
  - by apply elem_of_nil in Hin.
  - cbn [dict_get]. destruct (decide (k = k')); [done|].
    apply IH. cbn in Hin. apply elem_of_cons in Hin as [?|?]; done.
Qed.

Lemma build_host_data_keys (host_to_urls : dict pystr (list pystr)) :
  (build_host_data host_to_urls).*1 = host_to_urls.*1.
Proof.
  unfold build_host_data. induction host_to_urls as [|[h urls] l IH]; [done|].
  cbn. by rewrite <- IH.
Qed.

Lemma build_host_data_elem_of (host_to_urls : dict pystr (list pystr)) h urls :
  (h, urls) ∈ host_to_urls ->
  (h, {| all_urls := urls; rep_url := choose_rep_url urls |})
    ∈ build_host_data host_to_urls.
Proof.
  intros Hin. unfold build_host_data.
  by apply (list_elem_of_fmap_2
              (fun '(host, urls) =>
                 (host, {| all_urls := urls; rep_url := choose_rep_url urls |}))
              _ (h, urls)).
Qed.

Lemma take_3_nil (l : list pystr) : take 3 l = [] -> l = [].
Proof. by destruct l. Qed.

(** The tester returns, and what it returns and logs can be read host by
    host. *)
Lemma test_hosts_two_phase_spec (host_to_urls : dict pystr (list pystr))
    (s : Run World ProbeCall) :
  NoDup host_to_urls.*1 ->
  exists host_quality s' log,
    test_hosts_two_phase host_to_urls s = (Return host_quality, s') /\
    calls s' = calls s ++ log /\
    (forall h, is_Some (host_quality !! h) <-> h ∈ host_to_urls.*1) /\
    (forall h urls, (h, urls) ∈ host_to_urls ->
       exists q, host_quality !! h = Some q /\
                 host_outcome h urls (for_host h log) q).
Proof.
  intros Hnd. unfold test_hosts_two_phase.
  set (host_data := build_host_data host_to_urls).
  assert (Hkeys : host_data.*1 = host_to_urls.*1) by apply build_host_data_keys.
  assert (Hnd' : NoDup host_data.*1) by (by rewrite Hkeys).
  (* phase 1 *)
  destruct (for_each_keyed pc_host (fun acc h => acc.2 !! h) phase1_step
              (fun _ _ => True) phase1_post
              (fun k x acc s _ => phase1_step_spec k x acc s)
              host_data Hnd'
              (proj2 (Forall_forall _ _) (fun _ _ => I)) (∅, ∅) s)
    as (acc1 & s1 & log1 & Hrun1 & Hcalls1 & Htag1 & Hout1 & Hpost1).
  rewrite (bind_return _ _ _ _ _ Hrun1).
  (* selection *)
  destruct (select_spec host_data Hnd' [] acc1.2)
    as (retry & hq2 & Hsel & Hrkeys & Hrnd & Hout2 & Hpost2).
  rewrite Hsel. cbn [app].
  (* phase 2 *)
  assert (Hpre : Forall (fun e => is_Some (dict_get e.1 host_data)) retry).
  { eapply Forall_impl; [exact Hrkeys|]. intros e He. by apply dict_get_is_Some. }
  destruct (for_each_keyed pc_host (fun acc h => acc !! h) (phase2_step host_data)
              (fun h _ => is_Some (dict_get h host_data))
              (fun h cands _ q l =>
                 exists d, dict_get h host_data = Some d /\ phase2_post h cands d q l)
              (fun k x acc s Hk => phase2_step_spec host_data k x acc s Hk)
              retry Hrnd Hpre hq2 s1)
    as (hq3 & s3 & log2 & Hrun2 & Hcalls2 & Htag2 & Hout3 & Hpost3).
  exists hq3, s3, (log1 ++ log2). split.
  { destruct retry; [|exact Hrun2]. cbn in Hrun2. exact Hrun2. }
  split; [by rewrite Hcalls2, Hcalls1, app_assoc|].
  (* the record and the calls of one host *)
  assert (Hhost : forall h urls, (h, urls) ∈ host_to_urls ->
            exists q, hq3 !! h = Some q /\ host_outcome h urls (for_host h (log1 ++ log2)) q).
  { intros h urls Hin.
    pose proof (build_host_data_elem_of _ _ _ Hin) as Hin'. fold host_data in Hin'.
    specialize (Hpost1 _ _ Hin'). specialize (Hpost2 _ _ Hin').
    cbn [snd] in Hpost1. rewrite lookup_empty in Hpost1.
    unfold for_host. rewrite filter_app.
    assert (Hlog2 : h ∉ retry.*1 -> filter (fun c => pc_host c = h) log2 = []).
    { intros Hnot. apply filter_tag_none. eapply Forall_impl; [exact Htag2|].
      intros c Hc Heq. cbn in Hc. by rewrite Heq in Hc. }
    destruct Hpost1 as [(rep & v & Hrep & Htruthy & Halive & -> & Hq1)|[Hfail Hq1]].
    - (* the representative is alive *)
      cbn [rep_url] in Hrep. unfold select_post in Hpost2. cbn [snd] in Hpost2.
      rewrite Hq1 in Hpost2. destruct Hpost2 as [Hq2 Hnot].
      rewrite (Hlog2 Hnot), app_nil_r, (Hout3 h Hnot), Hq2.
      eexists. split; [reflexivity|]. by apply outcome_rep_alive.
    - (* phase 1 leaves the host without a record *)
      cbn [rep_url] in Hfail. unfold select_post in Hpost2.
      rewrite Hq1 in Hpost2. cbn [rep_url all_urls] in Hpost2.
      destruct (List.filter _ urls) as [|c cs] eqn:Hcands.
      + destruct Hpost2 as [Hq2 Hnot].
        rewrite (Hlog2 Hnot), app_nil_r, (Hout3 h Hnot), Hq2.
        eexists. split; [reflexivity|]. apply outcome_no_fallback; [done|].
        unfold alternates. by rewrite Hcands.
      + destruct Hpost2 as [Hq2 Hretry].
        destruct (Hpost3 _ _ Hretry) as (d & Hd & Hp3).
        rewrite (dict_get_elem_of _ _ _ Hnd' Hin') in Hd. injection Hd as <-.
        cbn [rep_url] in Hp3. rewrite <- Hcands in Hp3. fold (alternates urls) in Hp3.
        destruct Hp3 as [Hp3|[Hp3|Hp3]].
        * destruct Hp3 as (before & url & after & l2 & v & Halt & Hf & Hv & -> & ->).
          eexists. split; [reflexivity|]. by eapply outcome_fallback_alive.
        * destruct Hp3 as (l2 & url & v & Hlast & Hf & -> & ->).
          eexists. split; [reflexivity|]. by apply outcome_fallback_dead.
        * destruct Hp3 as (Halt & _). unfold alternates in Halt.
          apply take_3_nil in Halt. by rewrite Hcands in Halt. }
  split; [|exact Hhost].
  intros h. split.
  - intros Hsome. destruct (decide (h ∈ host_to_urls.*1)) as [|Hnot]; [done|].
    exfalso. rewrite <- Hkeys in Hnot.
    assert (Hnr : h ∉ retry.*1).
    { intros Hin. apply list_elem_of_fmap in Hin as [[h' x'] [-> Hin]].
      rewrite Forall_forall in Hrkeys. by apply Hrkeys in Hin. }
    rewrite (Hout3 h Hnr), (Hout2 h Hnot), (Hout1 h Hnot) in Hsome.
    cbn in Hsome. rewrite lookup_empty in Hsome. by destruct Hsome.
  - intros Hin. apply list_elem_of_fmap in Hin as [[h' urls] [-> Hin]].
    destruct (Hhost _ _ Hin) as [q [Hq _]]. by exists q.
Qed.
End HostTesterFacts.

(** ** What the tester's records say *)

Lemma alternates_length (urls : list pystr) : (length (alternates urls) <= 3)%nat.
Proof. unfold alternates. rewrite length_take. lia. Qed.

Lemma alternates_elem_of (urls : list pystr) (u : pystr) :
  u ∈ alternates urls -> u ∈ urls /\ Some u <> choose_rep_url urls.
Proof.
  unfold alternates. intros Hin. apply elem_of_take in Hin as [i [Hi _]].
  apply list_elem_of_lookup_2 in Hi. apply list_elem_of_In, filter_In in Hi as [Hin Hne].
  split; [by apply list_elem_of_In|].
  apply negb_true_iff, bool_decide_eq_false in Hne. exact Hne.
Qed.

Lemma alternates_none (urls : list pystr) :
  Forall (fun u => Some u = choose_rep_url urls) urls -> alternates urls = [].
Proof.
  intros Hall. destruct (alternates urls) as [|u l] eqn:Halt; [done|].
  assert (Hu : u ∈ alternates urls) by (rewrite Halt; apply elem_of_cons; by left).
  apply alternates_elem_of in Hu as [Hin Hne].
  rewrite Forall_forall in Hall. by apply Hall in Hin.
Qed.

Lemma phase1_failed_calls (host : pystr) (rep : option pystr) (l : list ProbeCall) :
  phase1_failed host rep l ->
  (length l <= 1)%nat /\
  Forall (fun c => pc_host c = host /\ Some (pc_url c) = rep /\
                   Verdict.alive (pc_verdict c) = false) l.
Proof.
  unfold phase1_failed. destruct rep as [[|c r]|].
  1,3: intros ->; split; [cbn; lia | constructor].
  intros [v [-> Hv]]. split; [cbn; lia|]. by repeat constructor.
Qed.

Lemma failed_probes_length (host : pystr) (urls : list pystr) (l : list ProbeCall) :
  failed_probes host urls l -> length l = length urls.
Proof. intros [<- _]. by rewrite length_map. Qed.

Lemma failed_probes_urls (host : pystr) (urls : list pystr) (l : list ProbeCall) :
  failed_probes host urls l -> Forall (fun c => pc_url c ∈ urls) l.
Proof.
  intros [<- _]. apply Forall_forall. intros c Hc.
  by apply (list_elem_of_fmap_2 pc_url).
Qed.

Lemma last_elem_of (l : list pystr) (u : pystr) : last l = Some u -> u ∈ l.
Proof.
  rewrite last_Some. intros [l' ->]. apply elem_of_app. right.
  apply elem_of_cons. by left.
Qed.

Section HostTesterClaims.
Context {lib : PyLib} {World : Type} {net : Net World}.

(** C3.  Given a dict from hosts to URL lists (empty lists included), the
    tester returns a dict with a record for every host of the input and
    for no other, one record each, and every record has [trials >= 1]. *)
Theorem one_record_per_endpoint (host_to_urls : dict pystr (list pystr))
    (s : Run World ProbeCall) :
  NoDup host_to_urls.*1 ->
  exists host_quality s',
    test_hosts_two_phase host_to_urls s = (Return host_quality, s') /\
    (forall h, is_Some (host_quality !! h) <-> h ∈ host_to_urls.*1) /\
    size host_quality = length host_to_urls /\
    (forall h q, host_quality !! h = Some q -> 1 <= HostQuality.trials q).
Proof.
  intros Hnd.
  destruct (test_hosts_two_phase_spec host_to_urls s Hnd)
    as (hq & s' & log & Hrun & _ & Hdom & Hhost).
  exists hq, s'. split; [exact Hrun|]. split; [exact Hdom|]. split.
  - assert (Hd : dom hq = list_to_set host_to_urls.*1).
    { apply set_eq. intros h. rewrite elem_of_dom, Hdom. by rewrite elem_of_list_to_set. }
    rewrite <- size_dom, Hd, size_list_to_set by done. by rewrite length_fmap.
  - intros h q Hq.
    assert (Hin : h ∈ host_to_urls.*1) by (apply Hdom; by exists q).
    apply list_elem_of_fmap in Hin as [[h' urls] [-> Hin]].
    destruct (Hhost _ _ Hin) as (q' & Hq' & Hout). cbn in Hq. rewrite Hq in Hq'.
    injection Hq' as <-. destruct Hout; cbn; lia.
Qed.

(** C8.  A host without alternates (every URL it owns is its
    representative) whose probe came back not alive gets the record
    [alive = False], latency 999, type [no_fallback], [trials = 1], and
    that probe, of the representative, is the only call made for it. *)
Theorem no_fallback_record (host_to_urls : dict pystr (list pystr))
    (s : Run World ProbeCall) (host : pystr) (urls : list pystr) :
  NoDup host_to_urls.*1 ->
  (host, urls) ∈ host_to_urls ->
  Forall (fun u => Some u = choose_rep_url urls) urls ->
  exists host_quality s' log,
    test_hosts_two_phase host_to_urls s = (Return host_quality, s') /\
    calls s' = calls s ++ log /\
    forall c, c ∈ for_host host log -> Verdict.alive (pc_verdict c) = false ->
      for_host host log = [c] /\
      choose_rep_url urls = Some (pc_url c) /\
      host_quality !! host
      = Some (HostQuality.Make false 999 (str "no_fallback") (Some (pc_url c)) 1).
Proof.
  intros Hnd Hin Hnoalt. apply alternates_none in Hnoalt.
  destruct (test_hosts_two_phase_spec host_to_urls s Hnd)
    as (hq & s' & log & Hrun & Hcalls & _ & Hhost).
  exists hq, s', log. split; [exact Hrun|]. split; [exact Hcalls|].
  intros c Hc Hdead. destruct (Hhost _ _ Hin) as (q & Hq & Hout).
  destruct Hout as [rep v Hrep Htr Hv|l1 Hfail _|l1 before url after l2 v _ Halt|l1 l2 url v _ Hlast].
  - apply list_elem_of_singleton in Hc as ->. cbn in Hdead. congruence.
  - unfold phase1_failed in Hfail.
    destruct (choose_rep_url urls) as [[|c0 r]|]; try (subst l1; by apply elem_of_nil in Hc).
    destruct Hfail as [v [-> Hv]]. apply list_elem_of_singleton in Hc as ->.
    by rewrite Hq.
  - rewrite Hnoalt in Halt. by destruct before.
  - by rewrite Hnoalt in Hlast.
Qed.



(** C2 (amended).  At most 3 alternates are selected for a host, all
    among its URLs and none of them the representative.  The calls made
    for the host are at most one probe of the representative followed by
    probes of alternates only, and of those there are at most one more
    than there are alternates, so at most 4: one per alternate until one
    is alive and, when none is, one more of the last. *)
Theorem fallback_probe_bound (host_to_urls : dict pystr (list pystr))
    (s : Run World ProbeCall) (host : pystr) (urls : list pystr) :
  NoDup host_to_urls.*1 ->
  (host, urls) ∈ host_to_urls ->
  exists host_quality s' log l1 l2,
    test_hosts_two_phase host_to_urls s = (Return host_quality, s') /\
    calls s' = calls s ++ log /\
    (length (alternates urls) <= 3)%nat /\
    Forall (fun u => u ∈ urls /\ Some u <> choose_rep_url urls) (alternates urls) /\
    for_host host log = l1 ++ l2 /\
    (length l1 <= 1)%nat /\
    Forall (fun c => Some (pc_url c) = choose_rep_url urls) l1 /\
    Forall (fun c => pc_url c ∈ alternates urls) l2 /\
    (length l2 <= length (alternates urls) + 1)%nat /\
    (length l2 <= 4)%nat.
Proof.
  intros Hnd Hin.
  destruct (test_hosts_two_phase_spec host_to_urls s Hnd)
    as (hq & s' & log & Hrun & Hcalls & _ & Hhost).
  destruct (Hhost _ _ Hin) as (q & Hq & Hout).
  pose proof (alternates_length urls) as Hlen.
  assert (Hshape : exists l1 l2,
    for_host host log = l1 ++ l2 /\ (length l1 <= 1)%nat /\
    Forall (fun c => Some (pc_url c) = choose_rep_url urls) l1 /\
    Forall (fun c => pc_url c ∈ alternates urls) l2 /\
    (length l2 <= length (alternates urls) + 1)%nat).
  { destruct Hout as [rep v Hrep Htr Hv|l1 Hfail Hnone|l1 before url after l2 v Hfail Halt Hbefore Hv|l1 l2 url v Hfail Hlast Hall].
    - exists [Build_ProbeCall host rep v], []. rewrite app_nil_r.
      repeat split; [cbn; lia|by repeat constructor|constructor|cbn; lia].
    - exists l1, []. rewrite app_nil_r.
      apply phase1_failed_calls in Hfail as [Hl Hf].
      repeat split; [done| |constructor|cbn; lia].
      eapply Forall_impl; [exact Hf|]. by intros c (_ & ? & _).
    - exists l1, (l2 ++ [Build_ProbeCall host url v]).
      apply phase1_failed_calls in Hfail as [Hl Hf].
      pose proof (failed_probes_length _ _ _ Hbefore) as Hl2.
      apply failed_probes_urls in Hbefore.
      repeat split; [done| | |].
      + eapply Forall_impl; [exact Hf|]. by intros c (_ & ? & _).
      + apply Forall_app. split.
        * eapply Forall_impl; [exact Hbefore|]. intros c Hc. cbn in Hc.
          rewrite Halt. apply elem_of_app. by left.
        * repeat constructor. cbn. rewrite Halt. apply elem_of_app. right.
          apply elem_of_cons. by left.
      + rewrite length_app, Hl2, Halt, length_app. cbn. lia.
    - exists l1, (l2 ++ [Build_ProbeCall host url v]).
      apply phase1_failed_calls in Hfail as [Hl Hf].
      pose proof (failed_probes_length _ _ _ Hall) as Hl2.
      apply failed_probes_urls in Hall.
      repeat split; [done| | |].
      + eapply Forall_impl; [exact Hf|]. by intros c (_ & ? & _).
      + apply Forall_app. split; [exact Hall|].
        repeat constructor. cbn. by apply last_elem_of.
      + rewrite length_app, Hl2. cbn. lia. }
  destruct Hshape as (l1 & l2 & Hsplit & Hl1 & Hrep & Halt & Hl2).
  exists hq, s', log, l1, l2.
  split; [exact Hrun|]. split; [exact Hcalls|]. split; [exact Hlen|].
  split; [apply Forall_forall; intros u Hu; by apply alternates_elem_of|].
  repeat split; try done. lia.
Qed.
End HostTesterClaims.

(** ** The tester on the example inputs *)

Lemma two_hosts_NoDup : NoDup Example.two_hosts.*1.
Proof.
  apply NoDup_cons. split; [|apply NoDup_singleton].
  intros Hin. apply list_elem_of_singleton in Hin. discriminate Hin.
Defined.


Lemma host_b_elem_of : (Example.host_b, [Example.rep_b]) ∈ Example.two_hosts.
Proof. apply elem_of_cons. right. apply elem_of_cons. by left. Defined.

(** [one_record_per_endpoint] on two hosts, offline. *)
Lemma one_record_per_endpoint_witness :
  exists host_quality s',
    Example.tester Example.two_hosts Example.offline = (Return host_quality, s') /\
    (forall h, is_Some (host_quality !! h) <-> h ∈ Example.two_hosts.*1) /\
    size host_quality = length Example.two_hosts /\
    (forall h q, host_quality !! h = Some q -> 1 <= HostQuality.trials q).
Proof.
  exact (one_record_per_endpoint Example.two_hosts Example.offline two_hosts_NoDup).
Defined.

(** [no_fallback_record] for host [b], which owns its representative
    only. *)
Lemma no_fallback_record_witness :
  exists host_quality s' log,
    Example.tester Example.two_hosts Example.offline = (Return host_quality, s') /\
    calls s' = calls (@Example.offline ProbeCall) ++ log /\
    forall c, c ∈ for_host Example.host_b log ->
      Verdict.alive (pc_verdict c) = false ->
      for_host Example.host_b log = [c] /\
      choose_rep_url [Example.rep_b] = Some (pc_url c) /\
      host_quality !! Example.host_b
      = Some (HostQuality.Make false 999 (str "no_fallback") (Some (pc_url c)) 1).
Proof.
  refine (no_fallback_record Example.two_hosts Example.offline Example.host_b
            [Example.rep_b] two_hosts_NoDup host_b_elem_of _).
  by repeat constructor.
Defined.




Lemma many_alternates_NoDup : NoDup Example.many_alternates.*1.
Proof. apply NoDup_singleton. Defined.

(** [fallback_probe_bound] for a host with four alternates. *)
Lemma fallback_probe_bound_witness :
  exists host_quality s' log l1 l2,
    Example.tester Example.many_alternates Example.offline = (Return host_quality, s') /\
    calls s' = calls (@Example.offline ProbeCall) ++ log /\
    (length (alternates [Example.rep_a; Example.alt_a1; Example.alt_a2;
                         Example.alt_a3; Example.alt_a4]) <= 3)%nat /\
    Forall (fun u => u ∈ [Example.rep_a; Example.alt_a1; Example.alt_a2;
                          Example.alt_a3; Example.alt_a4] /\
                     Some u <> choose_rep_url [Example.rep_a; Example.alt_a1;
                                               Example.alt_a2; Example.alt_a3;
                                               Example.alt_a4])
           (alternates [Example.rep_a; Example.alt_a1; Example.alt_a2;
                        Example.alt_a3; Example.alt_a4]) /\
    for_host Example.host_a log = l1 ++ l2 /\
    (length l1 <= 1)%nat /\
    Forall (fun c => Some (pc_url c)
                     = choose_rep_url [Example.rep_a; Example.alt_a1; Example.alt_a2;
                                       Example.alt_a3; Example.alt_a4]) l1 /\
    Forall (fun c => pc_url c ∈ alternates [Example.rep_a; Example.alt_a1;
                                            Example.alt_a2; Example.alt_a3;
                                            Example.alt_a4]) l2 /\
    (length l2 <= length (alternates [Example.rep_a; Example.alt_a1; Example.alt_a2;
                                      Example.alt_a3; Example.alt_a4]) + 1)%nat /\
    (length l2 <= 4)%nat.
Proof.
  refine (fallback_probe_bound Example.many_alternates Example.offline Example.host_a
            _ many_alternates_NoDup _).
  apply elem_of_cons. by left.
Defined.

(** C2, as stated, fails.  Three alternates are selected for host [a],
    every connection is refused, and the prober is called four times on
    them: once on each and once more on the last. *)
Lemma four_probes_for_three_alternates :
  exists host_quality s',
    Example.tester Example.many_alternates Example.offline = (Return host_quality, s') /\
    alternates [Example.rep_a; Example.alt_a1; Example.alt_a2; Example.alt_a3;
                Example.alt_a4]
    = [Example.alt_a1; Example.alt_a2; Example.alt_a3] /\
    map pc_url (for_host Example.host_a (calls s'))
    = [Example.rep_a; Example.alt_a1; Example.alt_a2; Example.alt_a3; Example.alt_a3] /\
    length (filter (fun c => pc_url c ∈ [Example.alt_a1; Example.alt_a2; Example.alt_a3])
                   (for_host Example.host_a (calls s'))) = 4%nat /\
    host_quality !! Example.host_a
    = Some (HostQuality.Make false (2 # 1) (str "error") (Some Example.rep_a) 4).
Proof.
  do 2 eexists. split; [vm_compute; reflexivity|].
  repeat split; vm_compute; reflexivity.
Qed.

(** ** Channel Candidate Resolver *)

Lemma sort_insert_perm (c : Candidate.t) (l : list Candidate.t) :
  sort_insert c l ≡ₚ c :: l.
Proof.
  induction l as [|d l IH]; cbn [sort_insert]; [done|].
  destruct (Qle_bool _ _); [done|]. rewrite IH. apply Permutation_swap.
Qed.

Lemma sort_by_latency_perm (l : list Candidate.t) : sort_by_latency l ≡ₚ l.
Proof.
  induction l as [|c l IH]; [done|].
  cbn. rewrite sort_insert_perm. by rewrite IH.
Qed.




Lemma candidates_of_omap url_to_host host_quality (items : list Item.t) :
  candidates_of url_to_host host_quality items
  = omap (candidate_of url_to_host host_quality) items.
Proof.
  unfold candidates_of.
  enough (Hgen : forall acc,
    foldl (fun candidates item =>
             match alive_host url_to_host host_quality (Item.url item) with
             | Some q => candidates ++ [Candidate.Make (Item.url item)
                                          (HostQuality.latency q)
                                          (Item.original_name item)]
             | None => candidates
             end) acc items
    = acc ++ omap (candidate_of url_to_host host_quality) items) by apply Hgen.
  induction items as [|item items IH]; intros acc; cbn [foldl omap list_omap].
  - by rewrite app_nil_r.
  - rewrite IH. unfold candidate_of at 2.
    destruct (alive_host _ _ _); cbn; [by rewrite <- app_assoc|done].
Qed.

Lemma candidate_alive url_to_host host_quality (items : list Item.t) (c : Candidate.t) :
  c ∈ candidates_of url_to_host host_quality items ->
  exists host q,
    url_to_host !! Candidate.url c = Some host /\
    host_quality !! host = Some q /\
    HostQuality.alive q = true /\
    Candidate.latency c = HostQuality.latency q.
Proof.
  rewrite candidates_of_omap, list_elem_of_omap.
  intros (item & _ & Hc). unfold candidate_of, alive_host in Hc.
  destruct (url_to_host !! Item.url item) as [host|] eqn:Hhost; [|done].
  destruct (truthy host); [|done].
  destruct (host_quality !! host) as [q|] eqn:Hq; [|done].
  destruct (HostQuality.alive q) eqn:Ha; [|done].
  cbn in Hc. injection Hc as <-. by exists host, q.
Qed.

Lemma build_channel_to_candidates_omap grouped url_to_host host_quality :
  build_channel_to_candidates grouped url_to_host host_quality
  = omap (channel_entry url_to_host host_quality) grouped.
Proof.
  unfold build_channel_to_candidates.
  enough (Hgen : forall acc,
    foldl (fun channel_to_candidates '(clean_name, items) =>
             let candidates := candidates_of url_to_host host_quality items in
             match candidates with
             | _ :: _ => channel_to_candidates ++ [(clean_name, sort_by_latency candidates)]
             | [] => channel_to_candidates
             end) acc grouped
    = acc ++ omap (channel_entry url_to_host host_quality) grouped) by apply Hgen.
  induction grouped as [|[name items] grouped IH]; intros acc;
    cbn [foldl omap list_omap].
  - by rewrite app_nil_r.
  - rewrite IH. unfold channel_entry at 2. cbn [fst snd].
    destruct (candidates_of _ _ items); cbn; [done|by rewrite <- app_assoc].
Qed.



Section ResolverFacts.
Context {lib : PyLib} {World : Type} {net : Net World}.

Lemma confirm_spec (clean_name url : pystr) (s : Run World ConfirmCall) :
  exists ok w',
    confirm clean_name url s
    = (Return ok, MkRun w' (calls s ++ [Build_ConfirmCall clean_name url ok])).
Proof.
  destruct (test_single_stream_returns url Config.TIMEOUT (world s)) as [ok [w' Hok]].
  exists ok, w'. unfold confirm.
  rewrite (bind_return _ _ s ok (MkRun w' (calls s))).
  - reflexivity.
  - unfold in_world. by rewrite Hok.
Qed.

Lemma select_first_spec (clean_name : pystr) (candidates : list Candidate.t) :
  forall s : Run World ConfirmCall,
  exists selected s' l,
    select_first clean_name candidates s = (Return selected, s') /\
    calls s' = calls s ++ l /\
    Forall (fun c => cc_channel c = clean_name) l /\
    match selected with
    | Some sel =>
        exists before cand after,
          candidates = before ++ cand :: after /\
          l = failed_confirms clean_name before
              ++ [Build_ConfirmCall clean_name (Candidate.url cand) true] /\
          sel = Selected.Make clean_name (Candidate.original_name cand)
                  (Candidate.url cand)
    | None => l = failed_confirms clean_name candidates
    end.
Proof.
  induction candidates as [|cand rest IH]; intros s; cbn [select_first].
  - exists None, s, []. unfold ret. rewrite app_nil_r. by repeat split.
  - destruct (confirm_spec clean_name (Candidate.url cand) s) as [ok [w' Hok]].
    rewrite (bind_return _ _ _ _ _ Hok). destruct ok.
    + unfold ret. do 3 eexists. split; [reflexivity|]. split; [reflexivity|].
      split; [by repeat constructor|]. by exists [], cand, rest.
    + destruct (IH (MkRun w' (calls s ++
                       [Build_ConfirmCall clean_name (Candidate.url cand) false])))
        as (selected & s' & l & Hrun & Hcalls & Htag & Hsel).
      exists selected, s', (Build_ConfirmCall clean_name (Candidate.url cand) false :: l).
      split; [exact Hrun|]. split.
      { rewrite Hcalls. cbn [calls]. by rewrite <- app_assoc. }
      split; [by constructor|].
      destruct selected as [sel|].
      * destruct Hsel as (before & c & after & -> & -> & ->).
        by exists (cand :: before), c, after.
      * by rewrite Hsel.
Qed.

Lemma resolve_step_spec (clean_name : pystr) (candidates : list Candidate.t)
    (final_channels : list Selected.t) (s : Run World ConfirmCall) :
  exists final' s' l,
    resolve_step (clean_name, candidates) final_channels s = (Return final', s') /\
    calls s' = calls s ++ l /\
    Forall (fun c => cc_channel c = clean_name) l /\
    (forall h, h <> clean_name ->
       filter (fun x => Selected.channel x = h) final'
       = filter (fun x => Selected.channel x = h) final_channels) /\
    resolve_post clean_name candidates
      (filter (fun x => Selected.channel x = clean_name) final_channels)
      (filter (fun x => Selected.channel x = clean_name) final') l /\
    (forall x, x ∈ final' ->
       x ∈ final_channels \/
       exists cand, cand ∈ candidates /\ Selected.url x = Candidate.url cand).
Proof.
  unfold resolve_step, resolve_post.
  destruct (select_first_spec clean_name candidates s)
    as (selected & s' & l & Hrun & Hcalls & Htag & Hsel).
  rewrite (bind_return _ _ _ _ _ Hrun).
  destruct selected as [sel|]; unfold ret; do 3 eexists;
    (split; [reflexivity|]); (split; [exact Hcalls|]); (split; [exact Htag|]).
  - destruct Hsel as (before & cand & after & -> & -> & ->). split; [|split].
    + intros h Hne. rewrite filter_app, filter_cons_False, filter_nil, app_nil_r; [done|].
      cbn. congruence.
    + left. exists before, cand, after. repeat split.
      by rewrite filter_app, filter_cons_True, filter_nil.
    + intros x Hx. apply elem_of_app in Hx as [Hx|Hx]; [by left|].
      apply list_elem_of_singleton in Hx as ->. right. exists cand. split; [|done].
      apply elem_of_app. right. apply elem_of_cons. by left.
  - split; [done|]. split; [by right|]. intros x Hx. by left.
Qed.

End ResolverFacts.

Lemma channel_entry_Some url_to_host host_quality (entry : pystr * list Item.t)
    (clean_name : pystr) (candidates : list Candidate.t) :
  channel_entry url_to_host host_quality entry = Some (clean_name, candidates) ->
  clean_name = entry.1 /\
  candidates = sort_by_latency (candidates_of url_to_host host_quality entry.2).
Proof.
  unfold channel_entry. destruct (candidates_of _ _ _); [done|].
  intros Heq. by injection Heq as <- <-.
Qed.

Section ResolverClaims.
Context {lib : PyLib} {World : Type} {net : Net World}.

Lemma resolve_loop_urls (channel_to_candidates : dict pystr (list Candidate.t)) :
  forall (final_channels : list Selected.t) (s : Run World ConfirmCall),
  exists final' s',
    for_each resolve_step channel_to_candidates final_channels s = (Return final', s') /\
    forall x, x ∈ final' ->
      x ∈ final_channels \/
      exists clean_name candidates cand,
        (clean_name, candidates) ∈ channel_to_candidates /\
        cand ∈ candidates /\ Selected.url x = Candidate.url cand.
Proof.
  induction channel_to_candidates as [|[name cands] rest IH]; intros final s.
  - exists final, s. split; [done|]. by left.
  - cbn [for_each].
    destruct (resolve_step_spec name cands final s)
      as (f1 & s1 & l & Hrun & _ & _ & _ & _ & Hurls).
    rewrite (bind_return _ _ _ _ _ Hrun).
    destruct (IH f1 s1) as (f2 & s2 & Hrun2 & Hurls2).
    exists f2, s2. split; [exact Hrun2|]. intros x Hx.
    destruct (Hurls2 x Hx) as [Hx1|(n & cs & cand & Hin & Hc & Hu)].
    + destruct (Hurls x Hx1) as [?|(cand & Hc & Hu)]; [by left|].
      right. exists name, cands, cand. split; [|done]. apply elem_of_cons. by left.
    + right. exists n, cs, cand. split; [|done]. apply elem_of_cons. by right.
Qed.

(** C6.  Whatever the channels, the quality map and the map from URLs to
    hosts, the resolver returns, and every URL it selects belongs to a
    host that has a record in the quality map with [alive = True]. *)
Theorem never_selects_dead_endpoint (grouped : dict pystr (list Item.t))
    (url_to_host : gmap pystr pystr) (host_quality : gmap pystr HostQuality.t)
    (s : Run World ConfirmCall) :
  exists final_channels s',
    build_final_playlist grouped url_to_host host_quality s
    = (Return final_channels, s') /\
    forall x, x ∈ final_channels ->
      exists host q,
        url_to_host !! Selected.url x = Some host /\
        host_quality !! host = Some q /\
        HostQuality.alive q = true.
Proof.
  unfold build_final_playlist.
  destruct (resolve_loop_urls
              (build_channel_to_candidates grouped url_to_host host_quality) [] s)
    as (final & s' & Hrun & Hurls).
  exists final, s'. split; [exact Hrun|]. intros x Hx.
  destruct (Hurls x Hx) as [Hnil|(name & cands & cand & Hin & Hc & ->)].
  { by apply elem_of_nil in Hnil. }
  rewrite build_channel_to_candidates_omap in Hin.
  apply list_elem_of_omap in Hin as ([n items] & _ & Hentry).
  apply channel_entry_Some in Hentry as [_ ->]. cbn [snd] in Hc.
  rewrite sort_by_latency_perm in Hc.
  destruct (candidate_alive _ _ _ _ Hc) as (host & q & Hhost & Hq & Halive & _).
  by exists host, q.
Qed.

End ResolverClaims.



(** The scenario of the specification: the candidate at 100 ms fails its
    confirmatory probe, the one at 250 ms passes and is selected; the
    candidate on the dead host is never probed. *)
Example channel_x_scenario :
  exists s',
    Example.resolver Example.grouped_x Example.url_to_host_x Example.host_quality_x
      (Example.start [] [Example.status 404; Scripted.ok Scripted.manifest])
    = (Return [Selected.Make (str "X") (str "X 2") Example.url_x3], s') /\
    calls s' = [Build_ConfirmCall (str "X") Example.url_x2 false;
                Build_ConfirmCall (str "X") Example.url_x3 true].
Proof. eexists. split; vm_compute; reflexivity. Qed.
